(** * The movie-database API client of movies-react-nextjs

    A shallow embedding of the API-access module (the second document of
    [movies-overview.tsx]: [baseUrl], [apiKey], the [is*] type guards and
    the three exported [fetch*] functions), with the fragment of JavaScript
    it runs on, and the properties of its response classification. *)

From Stdlib Require Import String Ascii List Bool ZArith.
From Stdlib Require Import DecimalString.
From ExtLib Require Import Structures.Monad.
Import ListNotations.
Import MonadNotation.
Local Open Scope string_scope.
Local Open Scope monad_scope.

Set Implicit Arguments.

(** ** Numbers

    A JSON number is an IEEE double.  The module never computes with one: it
    only tests a number for truthiness ([!!x]) and renders it in a template
    literal ([`${x}`]).  Those two observations are the interface. *)

Class Number : Type := {
  number : Type;
  number_truthy : number -> bool;
  number_to_string : number -> string
}.

(** Integral numbers, which JavaScript prints in plain decimal notation
    (below 10^21 in magnitude); the status codes of the remote API are such. *)
Definition int_truthy (n : Z) : bool := negb (n =? 0)%Z.

Definition int_to_string (n : Z) : string :=
  NilZero.string_of_int (Z.to_int n).

#[export] Instance IntNumber : Number := {|
  number := Z;
  number_truthy := int_truthy;
  number_to_string := int_to_string
|}.

(** ** Values

    What [response.json()] resolves to, and what [import.meta.env] holds: a
    JavaScript value without functions or symbols.  An object is the list of
    its own properties in insertion order. *)

#[warnings="-register-all"]
Inductive value `{Number} : Type :=
| VUndefined
| VNull
| VBool (b : bool)
| VNum (n : number)
| VStr (s : string)
| VArr (items : list value)
| VObj (props : list (string * value)).

(** ** Completions

    An expression or a call either returns or throws. *)

Inductive exn : Type :=
| Error (message : string)            (* [new Error(message)], made by the module *)
| InvariantFailed (message : string)  (* the Error of tiny-invariant's [invariant] *)
| TypeErrorIn                         (* [k in v] with [v] not an object *)
| TypeErrorProperty                   (* a property read on null or undefined *)
| TypeErrorNotCallable                (* a call of something that is not a function *)
| TypeErrorToPrimitive                (* a value with no primitive form, in a template *)
| FetchRejected (reason : string)     (* the promise of [fetch] rejected *)
| BodyNotJson.                        (* the promise of [response.json()] rejected *)

Inductive result (A : Type) : Type :=
| Return (a : A)
| Throw (e : exn).
Arguments Throw {A} e.

#[export] Instance Monad_result : Monad result := {|
  ret := fun _ a => Return a;
  bind := fun _ _ c k => match c with Return a => k a | Throw e => Throw e end
|}.

Section Javascript.
Context `{Number}.

(** [!!v] *)
Definition truthy (v : value) : bool :=
  match v with
  | VUndefined | VNull => false
  | VBool b => b
  | VNum n => number_truthy n
  | VStr s => negb (s =? "")
  | VArr _ | VObj _ => true
  end.

(** [typeof v] *)
Definition typeof (v : value) : string :=
  match v with
  | VUndefined => "undefined"
  | VNull => "object"
  | VBool _ => "boolean"
  | VNum _ => "number"
  | VStr _ => "string"
  | VArr _ | VObj _ => "object"
  end.

(** [Array.isArray(v)] *)
Definition isArray (v : value) : bool :=
  match v with VArr _ => true | _ => false end.

(** The own property [k] of an object, the first entry under that name. *)
Fixpoint own (k : string) (props : list (string * value)) : option value :=
  match props with
  | [] => None
  | (k', v) :: rest => if k' =? k then Some v else own k rest
  end.

Definition has_own (k : string) (props : list (string * value)) : bool :=
  match own k props with Some _ => true | None => false end.

(** [k in v], for a name [k] that is not inherited from a prototype and is
    neither an index nor [length] (every name the module tests is such):
    an own property of an object, nothing of an array, and a TypeError on
    anything that is not an object. *)
Definition js_in (k : string) (v : value) : result bool :=
  match v with
  | VObj props => Return (has_own k props)
  | VArr _ => Return false
  | _ => Throw TypeErrorIn
  end.

(** What a read of [k] finds, for such a name [k]: the own property of an
    object, and [undefined] anywhere else. *)
Definition prop (k : string) (v : value) : value :=
  match v with
  | VObj props =>
      match own k props with Some x => x | None => VUndefined end
  | _ => VUndefined
  end.

(** [v.k]: a TypeError on null and undefined. *)
Definition get (v : value) (k : string) : result value :=
  match v with
  | VUndefined | VNull => Throw TypeErrorProperty
  | _ => Return (prop k v)
  end.

(** [items.join(",")], given the string of an element. *)
Definition join (element : value -> result string)
  : list value -> result string :=
  fix join (items : list value) : result string :=
    match items with
    | [] => Return ""
    | [x] => element x
    | x :: rest =>
        a <- element x ;;
        b <- join rest ;;
        Return (a ++ "," ++ b)
    end.

(** ToString, as a template literal applies it.  An array joins its
    elements with commas, null and undefined elements as the empty
    string.  An object answers through the inherited [toString], unless
    an own property hides it: no value here is callable, and the inherited
    [valueOf] returns the object itself, so the conversion throws. *)
Fixpoint to_string (v : value) : result string :=
  match v with
  | VUndefined => Return "undefined"
  | VNull => Return "null"
  | VBool true => Return "true"
  | VBool false => Return "false"
  | VNum n => Return (number_to_string n)
  | VStr s => Return s
  | VArr items =>
      join (fun x => match x with
                     | VUndefined | VNull => Return ""
                     | _ => to_string x
                     end) items
  | VObj props =>
      if has_own "toString" props then Throw TypeErrorToPrimitive
      else Return "[object Object]"
  end.

(** [a && b] between boolean expressions: [b] is not evaluated (and does
    not throw) when [a] is false. *)
Definition and_then (a b : result bool) : result bool :=
  match a with
  | Return true => b
  | Return false => Return false
  | Throw e => Throw e
  end.

(** [items.every(callback)]: stops at the first element refused. *)
Fixpoint every (callback : value -> result bool) (items : list value)
  : result bool :=
  match items with
  | [] => Return true
  | x :: rest => and_then (callback x) (every callback rest)
  end.

(** [items.map(callback)] *)
Fixpoint map_items (callback : value -> result value) (items : list value)
  : result (list value) :=
  match items with
  | [] => Return []
  | x :: rest =>
      y <- callback x ;;
      ys <- map_items callback rest ;;
      Return (y :: ys)
  end.

End Javascript.

Notation "a &&& b" := (and_then a b) (at level 40, left associativity).

(** Induction over a value and the values nested in it. *)
Section ValueInduction.
Context `{Number}.
Variable P : value -> Prop.
Hypothesis P_undefined : P VUndefined.
Hypothesis P_null : P VNull.
Hypothesis P_bool : forall b, P (VBool b).
Hypothesis P_num : forall n, P (VNum n).
Hypothesis P_str : forall s, P (VStr s).
Hypothesis P_arr : forall items, Forall P items -> P (VArr items).
Hypothesis P_obj :
  forall props, Forall (fun entry => P (snd entry)) props -> P (VObj props).

Fixpoint value_nested_ind (v : value) : P v :=
  match v with
  | VUndefined => P_undefined
  | VNull => P_null
  | VBool b => P_bool b
  | VNum n => P_num n
  | VStr s => P_str s
  | VArr items =>
      P_arr ((fix each (l : list value) : Forall P l :=
                match l with
                | [] => Forall_nil P
                | x :: rest => Forall_cons x (value_nested_ind x) (each rest)
                end) items)
  | VObj props =>
      P_obj ((fix each (l : list (string * value))
                : Forall (fun entry => P (snd entry)) l :=
                match l with
                | [] => Forall_nil _
                | entry :: rest =>
                    Forall_cons entry (value_nested_ind (snd entry)) (each rest)
                end) props)
  end.

End ValueInduction.

(** ** Effects

    A call of an exported function talks to the network and to the console.
    The network is what answers a GET: the promise of [fetch] rejects, or
    resolves to a response whose body parses as JSON or does not.  A
    computation reads the network, leaves a trace of what it did and ends
    in a completion; the trace is kept when it throws. *)

Record Response `{Number} : Type := { body : option value }.

Inductive fetched `{Number} : Type :=
| NetworkFailure (reason : string)
| Responded (response : Response).

Definition network `{Number} : Type := string -> fetched.

Inductive event `{Number} : Type :=
| EvFetch (url : string)
| EvConsoleError (url : string) (data : value).

Record M `{Number} (A : Type) : Type :=
  mkM { run : network -> list event * result A }.

#[export] Instance Monad_M `{Number} : Monad M := {|
  ret := fun _ a => mkM (fun _ => ([], Return a));
  bind := fun _ _ c k =>
    mkM (fun net =>
           match run c net with
           | (t, Return a) =>
               match run (k a) net with (t', r) => ((t ++ t')%list, r) end
           | (t, Throw e) => (t, Throw e)
           end)
|}.

Section Effects.
Context `{Number}.

(** A pure expression inside an async function. *)
Definition lift {A} (r : result A) : M A := mkM (fun _ => ([], r)).

(** [throw e] *)
Definition throw {A} (e : exn) : M A := lift (Throw e).

(** [await fetch(url)] *)
Definition fetch (url : string) : M Response :=
  mkM (fun net =>
         ([EvFetch url],
          match net url with
          | NetworkFailure reason => Throw (FetchRejected reason)
          | Responded response => Return response
          end)).

(** [await response.json()] *)
Definition json (response : Response) : M value :=
  lift (match body response with
        | Some data => Return data
        | None => Throw BodyNotJson
        end).

(** [console.error(url, data)] *)
Definition console_error (url : string) (data : value) : M unit :=
  mkM (fun _ => ([EvConsoleError url data], Return tt)).

(** The URLs requested and the diagnostics printed, in order. *)
Definition requests (t : list event) : list string :=
  flat_map (fun e => match e with EvFetch url => [url] | _ => [] end) t.

Definition diagnostics (t : list event) : list (string * value) :=
  flat_map (fun e => match e with
                     | EvConsoleError url data => [(url, data)]
                     | _ => []
                     end) t.

End Effects.

(** ** The module *)

Definition baseUrl : string := "https://api.themoviedb.org/3".

(** [invariant(condition, message)] of tiny-invariant: returns on a truthy
    condition and throws its Error otherwise. *)
Definition invariant (condition : bool) (message : string) : result unit :=
  if condition then Return tt else Throw (InvariantFailed message).

Inductive Endpoint : Type := popular | top_rated | upcoming | now_playing.

(** The string literal each member of the union type is. *)
Definition endpoint_literal (endpoint : Endpoint) : string :=
  match endpoint with
  | popular => "popular"
  | top_rated => "top_rated"
  | upcoming => "upcoming"
  | now_playing => "now_playing"
  end.

Section Module.
Context `{Number}.

(** [const apiKey: string = envApiKey]: the value, read at the type the
    invariant has narrowed it to. *)
Definition narrowed (envApiKey : value) : string :=
  match envApiKey with VStr s => s | _ => "" end.

(** The statements the module runs when it is loaded, from the value of
    [import.meta.env.VITE_MOVIES_API_KEY] to the binding [apiKey]. *)
Definition module_init (envApiKey : value) : result string :=
  invariant (truthy envApiKey && (typeof envApiKey =? "string"))
            "VITE_MOVIES_API_KEY key is required" ;;
  ret (narrowed envApiKey).

Definition isErrorResponse (data : value) : result bool :=
  Return (truthy data)
  &&& Return (typeof data =? "object")
  &&& js_in "status_code" data
  &&& js_in "status_message" data.

Definition isMoviesData (data : value) : result bool :=
  Return (truthy data)
  &&& Return (typeof data =? "object")
  &&& js_in "results" data
  &&& (results <- get data "results" ;; ret (isArray results)).

Definition isMoviesAPIConfiguration (data : value) : result bool :=
  Return (truthy data)
  &&& Return (typeof data =? "object")
  &&& js_in "images" data
  &&& (images <- get data "images" ;; ret (truthy images))
  &&& (images <- get data "images" ;; ret (typeof images =? "object"))
  &&& (images <- get data "images" ;; js_in "base_url" images)
  &&& (images <- get data "images" ;;
       base_url <- get images "base_url" ;;
       ret (typeof base_url =? "string")).

Definition isLanguageArray (data : value) : result bool :=
  Return (truthy data)
  &&& Return (isArray data)
  &&& match data with
      | VArr items =>
          every (fun item =>
                   Return (truthy item)
                   &&& Return (typeof item =? "object")
                   &&& js_in "english_name" item
                   &&& js_in "iso_639_1" item
                   &&& js_in "name" item) items
      | _ => Throw TypeErrorNotCallable   (* [data.every] is not a function *)
      end.

(** [`${data.status_code}: ${data.status_message}`] *)
Definition error_message (data : value) : result string :=
  status_code <- get data "status_code" ;;
  code <- to_string status_code ;;
  status_message <- get data "status_message" ;;
  message <- to_string status_message ;;
  ret (code ++ ": " ++ message).

Variable apiKey : string.

Definition movies_url (endpoint : Endpoint) (languageCode : string) : string :=
  baseUrl ++ "/movie/" ++ endpoint_literal endpoint
          ++ "?api_key=" ++ apiKey ++ "&language=" ++ languageCode.

(** A parameter declared [languageCode = "en-US"]: [None] is a call that
    leaves it out. *)
Definition or_en_US (languageCode : option string) : string :=
  match languageCode with Some code => code | None => "en-US" end.

Definition fetchMovies (endpoint : Endpoint) (languageCode : option string)
  : M value :=
  let languageCode := or_en_US languageCode in
  let url := movies_url endpoint languageCode in
  response <- fetch url ;;
  data <- json response ;;
  is_error <- lift (isErrorResponse data) ;;
  if is_error : bool then
    message <- lift (error_message data) ;;
    throw (Error message)
  else
    is_movies <- lift (isMoviesData data) ;;
    if negb is_movies then
      console_error url data ;;
      throw (Error "Unexpected response")
    else
      lift (get data "results").

Definition configuration_url : string :=
  baseUrl ++ "/configuration?api_key=" ++ apiKey.

Definition fetchConfiguration : M value :=
  response <- fetch configuration_url ;;
  data <- json response ;;
  is_error <- lift (isErrorResponse data) ;;
  if is_error : bool then
    message <- lift (error_message data) ;;
    throw (Error message)
  else
    is_configuration <- lift (isMoviesAPIConfiguration data) ;;
    if negb is_configuration then
      throw (Error "Unexpected response")
    else
      ret data.

Definition languages_url : string :=
  baseUrl ++ "/configuration/languages?api_key=" ++ apiKey.

Definition fetchLanguageCodes : M value :=
  response <- fetch languages_url ;;
  data <- json response ;;
  is_error <- lift (isErrorResponse data) ;;
  if is_error : bool then
    message <- lift (error_message data) ;;
    throw (Error message)
  else
    is_languages <- lift (isLanguageArray data) ;;
    if negb is_languages then
      throw (Error "Unexpected response")
    else
      match data with
      | VArr items =>
          codes <- lift (map_items (fun item => get item "iso_639_1") items) ;;
          ret (VArr codes)
      | _ => throw TypeErrorNotCallable   (* [data.map] is not a function *)
      end.

End Module.

(** ** The shapes of the specification

    The specification classifies a payload as an API error ("has
    [status_code] + [status_message]"), as the success shape of the call, or
    as neither.  These are its shapes, written from its words; the guards of
    the module are compared with them below. *)

Section Shapes.
Context `{Number}.

(** An object containing both [status_code] and [status_message]. *)
Definition error_shape (data : value) : bool :=
  match data with
  | VObj props => has_own "status_code" props && has_own "status_message" props
  | _ => false
  end.

(** An object with a [results] field holding a sequence. *)
Definition results_of (data : value) : option (list value) :=
  match data with
  | VObj props =>
      match own "results" props with
      | Some (VArr items) => Some items
      | _ => None
      end
  | _ => None
  end.

(** An object whose [images] object holds a string [base_url]. *)
Definition base_url_of (data : value) : option string :=
  match data with
  | VObj props =>
      match own "images" props with
      | Some (VObj images) =>
          match own "base_url" images with
          | Some (VStr url) => Some url
          | _ => None
          end
      | _ => None
      end
  | _ => None
  end.

(** An object containing an English name, an ISO 639-1 code and a
    localized name. *)
Definition language_object (item : value) : bool :=
  match item with
  | VObj props =>
      has_own "english_name" props && has_own "iso_639_1" props
      && has_own "name" props
  | _ => false
  end.

(** A sequence of such objects. *)
Definition languages_of (data : value) : option (list value) :=
  match data with
  | VArr items => if forallb language_object items then Some items else None
  | _ => None
  end.

(** [data] is an object with a field [k]. *)
Definition has_field (k : string) (data : value) : bool :=
  match data with
  | VObj props => has_own k props
  | _ => false
  end.

Fixpoint has_colon (text : string) : bool :=
  match text with
  | EmptyString => false
  | String c rest => (c =? ":")%char || has_colon rest
  end.

(** [needle] occurs in [text]. *)
Definition contains (needle text : string) : Prop :=
  exists before after, text = before ++ needle ++ after.

(** The three classes of a payload, and the one a call puts it in: the
    error shape is looked for first. *)
Inductive classification : Type :=
| ValidShape (a : value)
| ApiErrorShape
| Unrecognized.

Definition classify (success : value -> option value) (data : value)
  : classification :=
  if error_shape data then ApiErrorShape
  else match success data with
       | Some a => ValidShape a
       | None => Unrecognized
       end.

Definition movies_success (data : value) : option value :=
  option_map (fun items => VArr items) (results_of data).

Definition configuration_success (data : value) : option value :=
  option_map (fun _ => data) (base_url_of data).

Definition languages_success (data : value) : option value :=
  option_map (fun items => VArr (map (prop "iso_639_1") items))
             (languages_of data).

(** How a call ends on a payload of each class. *)
Definition settle (class : classification) (data : value) : result value :=
  match class with
  | ValidShape a => Return a
  | ApiErrorShape =>
      match error_message data with
      | Return message => Throw (Error message)
      | Throw e => Throw e
      end
  | Unrecognized => Throw (Error "Unexpected response")
  end.

(** What the specification asks of the end of a call on [data]: one of
    three exclusive cases, and a value returned only in the valid one. *)
Definition classified (success : value -> option value) (data : value)
           (outcome : result value) : Prop :=
  (error_shape data = true
   /\ exists e, outcome = Throw e /\ e <> Error "Unexpected response")
  \/ (error_shape data = false
      /\ exists a, success data = Some a /\ outcome = Return a)
  \/ (error_shape data = false /\ success data = None
      /\ outcome = Throw (Error "Unexpected response")).

(** A value is returned only when the payload was found valid, and is
    the valid one. *)
Definition validated (success : value -> option value) (data : value)
           (outcome : result value) : Prop :=
  forall a, outcome = Return a ->
            error_shape data = false /\ success data = Some a.

(** A network that answers [data] to the request for [url]. *)
Definition answers (net : network) (url : string) (data : value) : Prop :=
  net url = Responded {| body := Some data |}.

(** The network that answers [data] to every request. *)
Definition always (data : value) : network :=
  fun _ => Responded {| body := Some data |}.

End Shapes.

(** ** Sample payloads, with integral numbers *)

Definition invalid_api_key_props : list (string * value) :=
  [("status_code", VNum 7%Z);
   ("status_message", VStr "Invalid API key");
   ("success", VBool false)].

Definition invalid_api_key : value := VObj invalid_api_key_props.

Definition empty_object : value := VObj [].

Definition movie (id : Z) (title : string) : value :=
  VObj [("id", VNum id); ("title", VStr title)].

Definition two_movies : list value :=
  [movie 603%Z "The Matrix"; movie 11%Z "Star Wars"].

Definition movies_page_props : list (string * value) :=
  [("page", VNum 1%Z); ("results", VArr two_movies); ("total_pages", VNum 1%Z)].

Definition movies_page : value := VObj movies_page_props.

Definition configuration_sample_props : list (string * value) :=
  [("images", VObj [("base_url", VStr "http://x/")])].

Definition configuration_sample : value := VObj configuration_sample_props.

Definition configuration_without_base_url_props : list (string * value) :=
  [("images", VObj [])].

Definition configuration_without_base_url : value :=
  VObj configuration_without_base_url_props.

Definition english : value :=
  VObj [("english_name", VStr "English");
        ("iso_639_1", VStr "en");
        ("name", VStr "English")].

(** A status code that is an object hiding the inherited [toString]. *)
Definition opaque_status : value :=
  VObj [("status_code", VObj [("toString", VNull)]);
        ("status_message", VStr "Invalid API key");
        ("success", VBool false)].

(** A configuration that also carries the two keys of an error envelope. *)
Definition configuration_with_status : value :=
  VObj [("images", VObj [("base_url", VStr "http://x/")]);
        ("status_code", VNum 7%Z);
        ("status_message", VStr "Invalid API key")].

(** A movie listing that also carries them, neither a number nor a string. *)
Definition listing_with_status_props : list (string * value) :=
  [("results", VArr two_movies);
   ("status_code", VStr "gone");
   ("status_message", VNull)].

Definition listing_with_status : value := VObj listing_with_status_props.

(** ** The overview component

    [MoviesOverview] hands four queries to [useQuery], one for each listing.
    What it hands over is modelled, not the hook: the options object of each
    query, whose [queryFn] is the call of [fetchMovies] it wraps. *)

Record QueryOptions `{Number} : Type := {
  initialData : value;
  useErrorBoundary : bool;
  queryKey : list string;
  queryFn : M value
}.

Section Overview.
Context `{Number}.
Variable apiKey : string.

Definition popularMoviesQuery : QueryOptions :=
  {| initialData := VArr [];
     useErrorBoundary := true;
     queryKey := ["popularMovies"];
     queryFn := fetchMovies apiKey popular None |}.

Definition topRatedMoviesQuery : QueryOptions :=
  {| initialData := VArr [];
     useErrorBoundary := true;
     queryKey := ["topRatedMovies"];
     queryFn := fetchMovies apiKey top_rated None |}.

Definition nowPlayingMoviesQuery : QueryOptions :=
  {| initialData := VArr [];
     useErrorBoundary := true;
     queryKey := ["nowPlayingMovies"];
     queryFn := fetchMovies apiKey now_playing None |}.

Definition upcomingMoviesQuery : QueryOptions :=
  {| initialData := VArr [];
     useErrorBoundary := true;
     queryKey := ["upcomingMovies"];
     queryFn := fetchMovies apiKey upcoming None |}.

(** The queries of [MoviesOverview], in the order of its hooks. *)
Definition MoviesOverview : list QueryOptions :=
  [popularMoviesQuery; topRatedMoviesQuery;
   nowPlayingMoviesQuery; upcomingMoviesQuery].

End Overview.

(** ** Networks and values for the edge cases *)

(** A network on which every [fetch] rejects. *)
Definition offline `{Number} (reason : string) : network :=
  fun _ => NetworkFailure reason.

(** A network whose every response has a body that is not JSON. *)
Definition garbled `{Number} : network :=
  fun _ => Responded {| body := None |}.

(** The values a template literal can render: no object with an own
    [toString], at any depth of arrays. *)
Fixpoint stringable `{Number} (v : value) : bool :=
  match v with
  | VArr items => forallb stringable items
  | VObj props => negb (has_own "toString" props)
  | _ => true
  end.

(** The TypeErrors of an operation applied to a value of the wrong kind:
    [in] on what is not an object, a property read on null or undefined, a
    call of what is not a function. *)
Definition misuse (e : exn) : bool :=
  match e with
  | TypeErrorIn | TypeErrorProperty | TypeErrorNotCallable => true
  | _ => false
  end.

Definition results_not_array_props : list (string * value) :=
  [("page", VNum 1%Z); ("results", VNull)].

Definition images_not_object_props : list (string * value) :=
  [("images", VArr [VStr "http://x/"])].

Definition base_url_not_string_props : list (string * value) :=
  [("images", VObj [("base_url", VNum 404%Z)])].

Definition nameless_language : value :=
  VObj [("english_name", VStr "German"); ("iso_639_1", VStr "de")].

Unset Implicit Arguments.

(** ** The guards are total and decide the shapes *)

Section Guards.
Context `{Number}.

Lemma isErrorResponse_decides (data : value) :
  isErrorResponse data = Return (error_shape data).
Proof.
  unfold isErrorResponse, error_shape.
  destruct data as [| |b|n|s|items|props]; cbn; try reflexivity.
  - now destruct b.
  - now destruct (number_truthy n).
  - now destruct (negb (s =? "")).
  - now destruct (has_own "status_code" props).
Qed.

Lemma isMoviesData_decides (data : value) :
  isMoviesData data
  = Return (match results_of data with Some _ => true | None => false end).
Proof.
  unfold isMoviesData, results_of.
  destruct data as [| |b|n|s|items|props]; cbn; try reflexivity.
  - now destruct b.
  - now destruct (number_truthy n).
  - now destruct (negb (s =? "")).
  - unfold has_own. destruct (own "results" props) as [[]|]; reflexivity.
Qed.

Lemma isMoviesAPIConfiguration_decides (data : value) :
  isMoviesAPIConfiguration data
  = Return (match base_url_of data with Some _ => true | None => false end).
Proof.
  unfold isMoviesAPIConfiguration, base_url_of.
  destruct data as [| |b|n|s|items|props]; cbn; try reflexivity.
  - now destruct b.
  - now destruct (number_truthy n).
  - now destruct (negb (s =? "")).
  - unfold has_own.
    destruct (own "images" props) as [images|]; [|reflexivity].
    destruct images as [| |b|n|s|items|images]; cbn; try reflexivity.
    + now destruct b.
    + now destruct (number_truthy n).
    + now destruct (negb (s =? "")).
    + unfold has_own.
      destruct (own "base_url" images) as [[]|]; reflexivity.
Qed.

Lemma language_callback_decides (item : value) :
  Return (truthy item)
  &&& Return (typeof item =? "object")
  &&& js_in "english_name" item
  &&& js_in "iso_639_1" item
  &&& js_in "name" item
  = Return (language_object item).
Proof.
  destruct item as [| |b|n|s|items|props]; cbn; try reflexivity.
  - now destruct b.
  - now destruct (number_truthy n).
  - now destruct (negb (s =? "")).
  - destruct (has_own "english_name" props); [|reflexivity].
    now destruct (has_own "iso_639_1" props).
Qed.

Lemma every_decides (callback : value -> result bool) (test : value -> bool)
      (items : list value) :
  (forall item, callback item = Return (test item)) ->
  every callback items = Return (forallb test items).
Proof.
  intros Hcb. induction items as [|x rest IH]; [reflexivity|].
  cbn. rewrite Hcb, IH. now destruct (test x).
Qed.

Lemma isLanguageArray_decides (data : value) :
  isLanguageArray data
  = Return (match languages_of data with Some _ => true | None => false end).
Proof.
  unfold isLanguageArray, languages_of.
  destruct data as [| |b|n|s|items|props];
    try rewrite (every_decides _ language_object items
                               language_callback_decides);
    cbn; try reflexivity.
  - now destruct b.
  - now destruct (number_truthy n).
  - now destruct (negb (s =? "")).
  - now destruct (forallb language_object items).
Qed.

(** [items.map(item => item.iso_639_1)] never throws: no element of a
    language array is null or undefined. *)
Lemma map_items_codes (items : list value) :
  forallb language_object items = true ->
  map_items (fun item => get item "iso_639_1") items
  = Return (map (prop "iso_639_1") items).
Proof.
  induction items as [|x rest IH]; [reflexivity|].
  cbn [forallb]. intros [Hx Hrest]%andb_prop.
  cbn [map_items map]. rewrite (IH Hrest).
  destruct x; try discriminate Hx. reflexivity.
Qed.

End Guards.

(** ** How a call runs

    Each exported function issues its one request and, on a JSON body, ends
    as the class of the payload says.  Only [fetchMovies] prints a
    diagnostic, and only on an unrecognized payload. *)

(** Unfolds the awaits of an async body, and nothing of what it calls. *)
Ltac async_steps :=
  cbn [bind ret Monad_M run lift throw fetch json console_error].

Section Runs.
Context `{Number}.
Variable apiKey : string.

Lemma get_results (data : value) (items : list value) :
  results_of data = Some items -> get data "results" = Return (VArr items).
Proof.
  destruct data as [| |b|n|s|l|props]; try discriminate. cbn.
  destruct (own "results" props) as [[]|]; try discriminate.
  now intros [= ->].
Qed.

Lemma languages_of_array (data : value) (items : list value) :
  languages_of data = Some items ->
  data = VArr items /\ forallb language_object items = true.
Proof.
  destruct data as [| |b|n|s|l|props]; try discriminate. cbn.
  destruct (forallb language_object l) eqn:Hall; try discriminate.
  now intros [= <-].
Qed.

Lemma run_fetchMovies (net : network) (endpoint : Endpoint)
      (languageCode : option string) :
  run (fetchMovies apiKey endpoint languageCode) net
  = let url := movies_url apiKey endpoint (or_en_US languageCode) in
    match net url with
    | NetworkFailure reason => ([EvFetch url], Throw (FetchRejected reason))
    | Responded {| body := None |} => ([EvFetch url], Throw BodyNotJson)
    | Responded {| body := Some data |} =>
        match classify movies_success data with
        | Unrecognized =>
            ([EvFetch url; EvConsoleError url data], settle Unrecognized data)
        | class => ([EvFetch url], settle class data)
        end
    end.
Proof.
  unfold fetchMovies. cbv zeta.
  generalize (movies_url apiKey endpoint (or_en_US languageCode)) as url.
  intros url. async_steps.
  destruct (net url) as [reason|[[data|]]]; cbn [body app]; try reflexivity.
  rewrite isErrorResponse_decides, isMoviesData_decides.
  unfold classify, movies_success.
  destruct (error_shape data); async_steps; cbn [settle].
  - now destruct (error_message data).
  - destruct (results_of data) as [items|] eqn:Hresults; cbn; [|reflexivity].
    now rewrite (get_results _ _ Hresults).
Qed.

Lemma run_fetchConfiguration (net : network) :
  run (fetchConfiguration apiKey) net
  = let url := configuration_url apiKey in
    match net url with
    | NetworkFailure reason => ([EvFetch url], Throw (FetchRejected reason))
    | Responded {| body := None |} => ([EvFetch url], Throw BodyNotJson)
    | Responded {| body := Some data |} =>
        ([EvFetch url], settle (classify configuration_success data) data)
    end.
Proof.
  unfold fetchConfiguration. cbv zeta.
  generalize (configuration_url apiKey) as url. intros url. async_steps.
  destruct (net url) as [reason|[[data|]]]; cbn [body app]; try reflexivity.
  rewrite isErrorResponse_decides, isMoviesAPIConfiguration_decides.
  unfold classify, configuration_success.
  destruct (error_shape data); async_steps; cbn [settle].
  - now destruct (error_message data).
  - now destruct (base_url_of data).
Qed.

Lemma run_fetchLanguageCodes (net : network) :
  run (fetchLanguageCodes apiKey) net
  = let url := languages_url apiKey in
    match net url with
    | NetworkFailure reason => ([EvFetch url], Throw (FetchRejected reason))
    | Responded {| body := None |} => ([EvFetch url], Throw BodyNotJson)
    | Responded {| body := Some data |} =>
        ([EvFetch url], settle (classify languages_success data) data)
    end.
Proof.
  unfold fetchLanguageCodes. cbv zeta.
  generalize (languages_url apiKey) as url. intros url. async_steps.
  destruct (net url) as [reason|[[data|]]]; cbn [body app]; try reflexivity.
  rewrite isErrorResponse_decides, isLanguageArray_decides.
  unfold classify, languages_success.
  destruct (error_shape data); async_steps; cbn [settle].
  - now destruct (error_message data).
  - destruct (languages_of data) as [items|] eqn:Hlanguages; cbn;
      [|reflexivity].
    destruct (languages_of_array _ _ Hlanguages) as [-> Hall].
    now rewrite (map_items_codes _ Hall).
Qed.

End Runs.

(** ** Strings *)

Lemma append_empty_r (s : string) : s ++ "" = s.
Proof. induction s as [|c s IH]; cbn; [reflexivity | now rewrite IH]. Qed.

Lemma append_assoc (a b c : string) : (a ++ b) ++ c = a ++ b ++ c.
Proof. induction a as [|x a IH]; cbn; [reflexivity | now rewrite IH]. Qed.

Lemma contains_prefix (a b : string) : contains a (a ++ b).
Proof. now exists "", b. Qed.

Lemma contains_suffix (a b : string) : contains b (a ++ b).
Proof. exists a, "". now rewrite append_empty_r. Qed.

Lemma has_colon_append (a b : string) :
  has_colon b = true -> has_colon (a ++ b) = true.
Proof.
  intros Hb. induction a as [|c a IH]; cbn [append has_colon]; [exact Hb|].
  rewrite IH. apply orb_true_r.
Qed.

Lemma has_colon_template (code message : string) :
  has_colon (code ++ ": " ++ message) = true.
Proof. now apply has_colon_append. Qed.

Lemma template_not_unexpected (code message : string) :
  code ++ ": " ++ message <> "Unexpected response".
Proof.
  intros Heq. pose proof (has_colon_template code message) as Hcolon.
  rewrite Heq in Hcolon. discriminate Hcolon.
Qed.

(** ** What the three calls share *)

Section Calls.
Context `{Number}.

Lemma join_throws (element : value -> result string) (items : list value)
      (e : exn) :
  join element items = Throw e ->
  exists x, In x items /\ element x = Throw e.
Proof.
  induction items as [|x rest IH]; [discriminate|].
  destruct rest as [|y rest].
  - cbn. intros Hx. exists x. now split; [left|].
  - change (join element (x :: y :: rest))
      with (a <- element x ;; b <- join element (y :: rest) ;;
            Return (a ++ "," ++ b)).
    cbn [bind Monad_result].
    destruct (element x) as [a|e'] eqn:Hx.
    + destruct (join element (y :: rest)) as [b|e'']; [discriminate|].
      intros [= <-]. destruct (IH eq_refl) as (z & Hin & Hz).
      exists z. now split; [right|].
    + intros [= <-]. exists x. now split; [left|].
Qed.

(** The only failure of a conversion to a string. *)
Lemma to_string_throws (v : value) :
  forall e, to_string v = Throw e -> e = TypeErrorToPrimitive.
Proof.
  induction v as [| |b|n|s|items IH|props _] using value_nested_ind;
    intros e; cbn [to_string]; try discriminate.
  - destruct b; discriminate.
  - intros (x & Hin & Hx)%join_throws.
    rewrite Forall_forall in IH.
    destruct x; try discriminate Hx; exact (IH _ Hin _ Hx).
  - destruct (has_own "toString" props); [now intros [= <-] | discriminate].
Qed.

Lemma error_message_throws (data : value) (e : exn) :
  error_message data = Throw e ->
  e = TypeErrorToPrimitive \/ e = TypeErrorProperty.
Proof.
  unfold error_message. cbn [bind ret Monad_result].
  destruct (get data "status_code") as [c|e1] eqn:Hc.
  - destruct (to_string c) as [code|e2] eqn:Hcode.
    + destruct (get data "status_message") as [m|e3] eqn:Hm.
      * destruct (to_string m) as [message|e4] eqn:Hmessage; [discriminate|].
        intros [= <-]. left. exact (to_string_throws _ _ Hmessage).
      * destruct data; discriminate Hc || discriminate Hm.
    + intros [= <-]. left. exact (to_string_throws _ _ Hcode).
  - intros [= <-]. right. destruct data; now inversion Hc.
Qed.

Lemma error_message_template (data : value) (text : string) :
  error_message data = Return text ->
  exists code message, text = code ++ ": " ++ message.
Proof.
  unfold error_message. cbn [bind ret Monad_result].
  destruct (get data "status_code") as [c|]; [|discriminate].
  destruct (to_string c) as [code|]; [|discriminate].
  destruct (get data "status_message") as [m|]; [|discriminate].
  destruct (to_string m) as [message|]; [|discriminate].
  intros [= <-]. now exists code, message.
Qed.

(** The end of a call on an error envelope is never a value and never the
    "Unexpected response" error. *)
Lemma settle_error_shape (data : value) :
  exists e, settle ApiErrorShape data = Throw e
            /\ e <> Error "Unexpected response".
Proof.
  cbn [settle]. destruct (error_message data) as [text|e] eqn:Hmessage.
  - exists (Error text). split; [reflexivity|].
    destruct (error_message_template _ _ Hmessage) as (code & message & ->).
    intros [= Heq]. exact (template_not_unexpected _ _ Heq).
  - exists e. split; [reflexivity|].
    destruct (error_message_throws _ _ Hmessage) as [-> | ->]; discriminate.
Qed.

End Calls.

Section Outcomes.
Context `{Number}.
Variable apiKey : string.

Lemma classified_settle (success : value -> option value) (data : value) :
  classified success data (settle (classify success data) data).
Proof.
  unfold classified, classify.
  destruct (error_shape data).
  - left. split; [reflexivity | apply settle_error_shape].
  - right. destruct (success data) as [a|].
    + left. split; [reflexivity|]. now exists a.
    + right. now repeat split.
Qed.

Lemma outcome_fetchMovies (net : network) (endpoint : Endpoint)
      (languageCode : option string) (data : value) :
  answers net (movies_url apiKey endpoint (or_en_US languageCode)) data ->
  snd (run (fetchMovies apiKey endpoint languageCode) net)
  = settle (classify movies_success data) data.
Proof.
  unfold answers. intros Hnet. rewrite run_fetchMovies. cbv zeta.
  rewrite Hnet. now destruct (classify movies_success data).
Qed.

Lemma outcome_fetchConfiguration (net : network) (data : value) :
  answers net (configuration_url apiKey) data ->
  run (fetchConfiguration apiKey) net
  = ([EvFetch (configuration_url apiKey)],
     settle (classify configuration_success data) data).
Proof.
  unfold answers. intros Hnet. rewrite run_fetchConfiguration. cbv zeta.
  now rewrite Hnet.
Qed.

Lemma outcome_fetchLanguageCodes (net : network) (data : value) :
  answers net (languages_url apiKey) data ->
  run (fetchLanguageCodes apiKey) net
  = ([EvFetch (languages_url apiKey)],
     settle (classify languages_success data) data).
Proof.
  unfold answers. intros Hnet. rewrite run_fetchLanguageCodes. cbv zeta.
  now rewrite Hnet.
Qed.

(** On anything but an unrecognized payload, [fetchMovies] leaves the
    request as its whole trace. *)
Lemma quiet_fetchMovies (net : network) (endpoint : Endpoint)
      (languageCode : option string) (data : value) :
  answers net (movies_url apiKey endpoint (or_en_US languageCode)) data ->
  classify movies_success data <> Unrecognized ->
  run (fetchMovies apiKey endpoint languageCode) net
  = ([EvFetch (movies_url apiKey endpoint (or_en_US languageCode))],
     settle (classify movies_success data) data).
Proof.
  unfold answers. intros Hnet Hclass. rewrite run_fetchMovies. cbv zeta.
  rewrite Hnet. now destruct (classify movies_success data).
Qed.

Lemma unrecognized_fetchMovies (net : network) (endpoint : Endpoint)
      (languageCode : option string) (data : value) :
  answers net (movies_url apiKey endpoint (or_en_US languageCode)) data ->
  classify movies_success data = Unrecognized ->
  run (fetchMovies apiKey endpoint languageCode) net
  = (let url := movies_url apiKey endpoint (or_en_US languageCode) in
     [EvFetch url; EvConsoleError url data],
     Throw (Error "Unexpected response")).
Proof.
  unfold answers. intros Hnet Hclass. rewrite run_fetchMovies. cbv zeta.
  now rewrite Hnet, Hclass.
Qed.

(** Each call issues exactly one request, whatever the network does. *)
Lemma requests_fetchMovies (net : network) (endpoint : Endpoint)
      (languageCode : option string) :
  requests (fst (run (fetchMovies apiKey endpoint languageCode) net))
  = [movies_url apiKey endpoint (or_en_US languageCode)].
Proof.
  rewrite run_fetchMovies. cbv zeta.
  destruct (net _) as [reason|[[data|]]]; try reflexivity.
  now destruct (classify movies_success data).
Qed.

Lemma requests_fetchConfiguration (net : network) :
  requests (fst (run (fetchConfiguration apiKey) net))
  = [configuration_url apiKey].
Proof.
  rewrite run_fetchConfiguration. cbv zeta.
  now destruct (net _) as [reason|[[data|]]].
Qed.

Lemma requests_fetchLanguageCodes (net : network) :
  requests (fst (run (fetchLanguageCodes apiKey) net))
  = [languages_url apiKey].
Proof.
  rewrite run_fetchLanguageCodes. cbv zeta.
  now destruct (net _) as [reason|[[data|]]].
Qed.

(** [fetchMovies] prints its diagnostic on an unrecognized payload and
    nowhere else; the other two calls never print. *)
Lemma diagnostics_fetchMovies (net : network) (endpoint : Endpoint)
      (languageCode : option string) :
  diagnostics (fst (run (fetchMovies apiKey endpoint languageCode) net))
  = let url := movies_url apiKey endpoint (or_en_US languageCode) in
    match net url with
    | Responded {| body := Some data |} =>
        match classify movies_success data with
        | Unrecognized => [(url, data)]
        | _ => []
        end
    | _ => []
    end.
Proof.
  rewrite run_fetchMovies. cbv zeta.
  destruct (net _) as [reason|[[data|]]]; try reflexivity.
  now destruct (classify movies_success data).
Qed.

Lemma diagnostics_fetchConfiguration (net : network) :
  diagnostics (fst (run (fetchConfiguration apiKey) net)) = [].
Proof.
  rewrite run_fetchConfiguration. cbv zeta.
  now destruct (net _) as [reason|[[data|]]].
Qed.

Lemma diagnostics_fetchLanguageCodes (net : network) :
  diagnostics (fst (run (fetchLanguageCodes apiKey) net)) = [].
Proof.
  rewrite run_fetchLanguageCodes. cbv zeta.
  now destruct (net _) as [reason|[[data|]]].
Qed.

End Outcomes.

(** ** The listing of movies *)

(** C1. For every endpoint of the enumeration and every payload that is an
    object whose [results] field holds an array, and that does not carry
    both keys of an error envelope, [fetchMovies] returns that very array:
    the same elements in the order the server gave them.  Its whole trace
    is the one request. *)
Theorem fetchMovies_returns_results_unchanged `{Number}
        (apiKey : string) (net : network) (endpoint : Endpoint)
        (languageCode : option string)
        (props : list (string * value)) (items : list value) :
  own "results" props = Some (VArr items) ->
  has_own "status_code" props && has_own "status_message" props = false ->
  answers net (movies_url apiKey endpoint (or_en_US languageCode))
          (VObj props) ->
  run (fetchMovies apiKey endpoint languageCode) net
  = ([EvFetch (movies_url apiKey endpoint (or_en_US languageCode))],
     Return (VArr items)).
Proof.
  intros Hresults Hkeys Hnet.
  assert (Hclass : classify movies_success (VObj props)
                   = ValidShape (VArr items)).
  { unfold classify, movies_success, results_of. cbn [error_shape].
    now rewrite Hkeys, Hresults. }
  rewrite (quiet_fetchMovies _ _ _ _ _ Hnet); rewrite Hclass;
    [reflexivity | discriminate].
Qed.

Lemma fetchMovies_returns_results_unchanged_witness :
  Forall (fun endpoint =>
            run (fetchMovies "KEY" endpoint None) (always movies_page)
            = ([EvFetch (movies_url "KEY" endpoint "en-US")],
               Return (VArr two_movies)))
         [popular; top_rated; upcoming; now_playing].
Proof.
  repeat
    (apply Forall_cons;
     [apply (@fetchMovies_returns_results_unchanged
               IntNumber "KEY" (always movies_page) _ None
               movies_page_props two_movies);
      reflexivity |]).
  apply Forall_nil.
Defined.

(** C8. The URL [fetchMovies] requests is, whatever the network answers,
    [https://api.themoviedb.org/3/movie/{endpoint}?api_key={apiKey}&language={languageCode}],
    with [en-US] for a call that leaves the language out;
    [fetchConfiguration] and [fetchLanguageCodes] request [/configuration]
    and [/configuration/languages] with the [api_key] parameter alone.
    Each call issues that one request and no other. *)
Theorem request_urls `{Number} (apiKey : string) (net : network)
        (endpoint : Endpoint) (languageCode : string) :
  requests (fst (run (fetchMovies apiKey endpoint (Some languageCode)) net))
  = ["https://api.themoviedb.org/3/movie/" ++ endpoint_literal endpoint
       ++ "?api_key=" ++ apiKey ++ "&language=" ++ languageCode]
  /\ requests (fst (run (fetchMovies apiKey endpoint None) net))
     = ["https://api.themoviedb.org/3/movie/" ++ endpoint_literal endpoint
          ++ "?api_key=" ++ apiKey ++ "&language=" ++ "en-US"]
  /\ requests (fst (run (fetchConfiguration apiKey) net))
     = ["https://api.themoviedb.org/3/configuration?api_key=" ++ apiKey]
  /\ requests (fst (run (fetchLanguageCodes apiKey) net))
     = ["https://api.themoviedb.org/3/configuration/languages?api_key="
          ++ apiKey].
Proof.
  rewrite !requests_fetchMovies, requests_fetchConfiguration,
    requests_fetchLanguageCodes.
  repeat split.
Qed.

(** ** The catalogue of languages *)

(** C5. On a payload that is an array of objects each containing
    [english_name], [iso_639_1] and [name], [fetchLanguageCodes] returns the
    array of their [iso_639_1] values, in the order of the payload.  On a
    payload that is not an array and not an error envelope it throws the
    "Unexpected response" error. *)
Theorem fetchLanguageCodes_codes_in_order `{Number}
        (apiKey : string) (net : network) (data : value) :
  answers net (languages_url apiKey) data ->
  (forall items,
      data = VArr items ->
      forallb language_object items = true ->
      run (fetchLanguageCodes apiKey) net
      = ([EvFetch (languages_url apiKey)],
         Return (VArr (map (prop "iso_639_1") items))))
  /\ (isArray data = false ->
      error_shape data = false ->
      run (fetchLanguageCodes apiKey) net
      = ([EvFetch (languages_url apiKey)],
         Throw (Error "Unexpected response"))).
Proof.
  intros Hnet. rewrite (outcome_fetchLanguageCodes _ _ _ Hnet). split.
  - intros items -> Hall.
    unfold classify, languages_success, languages_of. cbn [error_shape].
    now rewrite Hall.
  - intros Harray Herror. unfold classify. rewrite Herror.
    now destruct data.
Qed.

Lemma fetchLanguageCodes_codes_in_order_witness :
  run (fetchLanguageCodes "KEY") (always (VArr [english]))
  = ([EvFetch
        "https://api.themoviedb.org/3/configuration/languages?api_key=KEY"],
     Return (VArr [VStr "en"]))
  /\ run (fetchLanguageCodes "KEY") (always (VStr "English"))
     = ([EvFetch
           "https://api.themoviedb.org/3/configuration/languages?api_key=KEY"],
        Throw (Error "Unexpected response")).
Proof.
  split.
  - exact (proj1 (@fetchLanguageCodes_codes_in_order
                    IntNumber "KEY" (always (VArr [english]))
                    (VArr [english]) eq_refl)
                 [english] eq_refl eq_refl).
  - exact (proj2 (@fetchLanguageCodes_codes_in_order
                    IntNumber "KEY" (always (VStr "English"))
                    (VStr "English") eq_refl)
                 eq_refl eq_refl).
Defined.

(** C10. The empty array is a valid catalogue: the test of the elements
    holds of none, [isLanguageArray] accepts it, and [fetchLanguageCodes]
    returns the empty array of codes. *)
Theorem fetchLanguageCodes_empty_catalogue `{Number}
        (apiKey : string) (net : network) :
  answers net (languages_url apiKey) (VArr []) ->
  isLanguageArray (VArr []) = Return true
  /\ run (fetchLanguageCodes apiKey) net
     = ([EvFetch (languages_url apiKey)], Return (VArr [])).
Proof.
  intros Hnet. split; [reflexivity|].
  now rewrite (outcome_fetchLanguageCodes _ _ _ Hnet).
Qed.

Lemma fetchLanguageCodes_empty_catalogue_witness :
  isLanguageArray (VArr []) = Return true
  /\ run (fetchLanguageCodes "KEY") (always (VArr []))
     = ([EvFetch
           "https://api.themoviedb.org/3/configuration/languages?api_key=KEY"],
        Return (VArr [])).
Proof.
  exact (@fetchLanguageCodes_empty_catalogue
           IntNumber "KEY" (always (VArr [])) eq_refl).
Defined.

(** ** Error envelopes *)

Lemma error_message_of_props `{Number} (props : list (string * value))
      (status_code status_message : value) (code message : string) :
  own "status_code" props = Some status_code ->
  own "status_message" props = Some status_message ->
  to_string status_code = Return code ->
  to_string status_message = Return message ->
  error_shape (VObj props) = true
  /\ error_message (VObj props) = Return (code ++ ": " ++ message).
Proof.
  intros Hc Hm Hcode Hmessage. split.
  - cbn [error_shape]. unfold has_own. now rewrite Hc, Hm.
  - unfold error_message. cbn [get prop bind ret Monad_result].
    now rewrite Hc, Hm, Hcode, Hmessage.
Qed.

(** C2, as amended.  On a payload that is an object containing
    [status_code] and [status_message], both of which have a string form
    (every number, string, boolean and null has one), [fetchMovies] and
    [fetchConfiguration] throw the Error whose message is the code, a colon
    and the status message, and so contains both.  Nothing is asked of the
    rest of the payload: the error shape is looked for before the success
    shape. *)
Theorem api_error_carries_code_and_message `{Number}
        (apiKey : string) (net : network) (endpoint : Endpoint)
        (languageCode : option string) (props : list (string * value))
        (status_code status_message : value) (code message : string) :
  own "status_code" props = Some status_code ->
  own "status_message" props = Some status_message ->
  to_string status_code = Return code ->
  to_string status_message = Return message ->
  answers net (movies_url apiKey endpoint (or_en_US languageCode))
          (VObj props) ->
  answers net (configuration_url apiKey) (VObj props) ->
  run (fetchMovies apiKey endpoint languageCode) net
  = ([EvFetch (movies_url apiKey endpoint (or_en_US languageCode))],
     Throw (Error (code ++ ": " ++ message)))
  /\ run (fetchConfiguration apiKey) net
     = ([EvFetch (configuration_url apiKey)],
        Throw (Error (code ++ ": " ++ message)))
  /\ contains code (code ++ ": " ++ message)
  /\ contains message (code ++ ": " ++ message).
Proof.
  intros Hc Hm Hcode Hmessage Hmovies Hconfiguration.
  destruct (error_message_of_props _ _ _ _ _ Hc Hm Hcode Hmessage)
    as [Hshape Htext].
  assert (Hclass : forall success,
             classify success (VObj props) = ApiErrorShape).
  { intros success. unfold classify. now rewrite Hshape. }
  repeat split.
  - rewrite (quiet_fetchMovies _ _ _ _ _ Hmovies); rewrite Hclass;
      [|discriminate].
    cbn [settle]. now rewrite Htext.
  - rewrite (outcome_fetchConfiguration _ _ _ Hconfiguration), Hclass.
    cbn [settle]. now rewrite Htext.
  - apply contains_prefix.
  - rewrite <- append_assoc. apply contains_suffix.
Qed.

Lemma api_error_carries_code_and_message_witness :
  run (fetchMovies "KEY" popular None) (always invalid_api_key)
  = ([EvFetch (movies_url "KEY" popular "en-US")],
     Throw (Error "7: Invalid API key"))
  /\ run (fetchConfiguration "KEY") (always invalid_api_key)
     = ([EvFetch (configuration_url "KEY")],
        Throw (Error "7: Invalid API key"))
  /\ contains "7" "7: Invalid API key"
  /\ contains "Invalid API key" "7: Invalid API key".
Proof.
  exact (@api_error_carries_code_and_message
           IntNumber "KEY" (always invalid_api_key) popular None
           invalid_api_key_props (VNum 7%Z) (VStr "Invalid API key")
           "7" "Invalid API key"
           eq_refl eq_refl eq_refl eq_refl eq_refl eq_refl).
Defined.

(** C2, as stated, fails on a status code without a string form: the
    template literal throws the TypeError of the conversion, and no Error
    with the code and the message is ever made. *)
Lemma opaque_status_code_throws_conversion_error :
  error_shape opaque_status = true
  /\ run (fetchMovies "KEY" popular None) (always opaque_status)
     = ([EvFetch (movies_url "KEY" popular "en-US")],
        Throw TypeErrorToPrimitive)
  /\ run (fetchConfiguration "KEY") (always opaque_status)
     = ([EvFetch (configuration_url "KEY")], Throw TypeErrorToPrimitive)
  /\ ~ (exists text,
           snd (run (fetchMovies "KEY" popular None) (always opaque_status))
           = Throw (Error text)
           /\ contains "Invalid API key" text).
Proof.
  repeat split. intros (text & Hthrown & _). discriminate Hthrown.
Qed.

(** C9. A payload that is an object containing the keys [status_code] and
    [status_message], whatever their values and whatever else it holds, is
    an error response for [isErrorResponse], and each of the three calls
    throws on it: never a value, never the "Unexpected response" error, and
    nothing but the request in the trace. *)
Theorem error_envelope_always_throws `{Number}
        (apiKey : string) (net : network) (endpoint : Endpoint)
        (languageCode : option string) (props : list (string * value)) :
  has_own "status_code" props = true ->
  has_own "status_message" props = true ->
  answers net (movies_url apiKey endpoint (or_en_US languageCode))
          (VObj props) ->
  answers net (configuration_url apiKey) (VObj props) ->
  answers net (languages_url apiKey) (VObj props) ->
  isErrorResponse (VObj props) = Return true
  /\ (exists e,
         run (fetchMovies apiKey endpoint languageCode) net
         = ([EvFetch (movies_url apiKey endpoint (or_en_US languageCode))],
            Throw e)
         /\ e <> Error "Unexpected response")
  /\ (exists e,
         run (fetchConfiguration apiKey) net
         = ([EvFetch (configuration_url apiKey)], Throw e)
         /\ e <> Error "Unexpected response")
  /\ (exists e,
         run (fetchLanguageCodes apiKey) net
         = ([EvFetch (languages_url apiKey)], Throw e)
         /\ e <> Error "Unexpected response").
Proof.
  intros Hc Hm Hmovies Hconfiguration Hlanguages.
  assert (Hshape : error_shape (VObj props) = true).
  { cbn [error_shape]. now rewrite Hc, Hm. }
  assert (Hclass : forall success,
             classify success (VObj props) = ApiErrorShape).
  { intros success. unfold classify. now rewrite Hshape. }
  destruct (settle_error_shape (VObj props)) as (e & Hsettle & Hnot).
  split; [now rewrite isErrorResponse_decides, Hshape|].
  repeat split; exists e; (split; [|exact Hnot]).
  - rewrite (quiet_fetchMovies _ _ _ _ _ Hmovies); rewrite Hclass;
      [now rewrite Hsettle | discriminate].
  - now rewrite (outcome_fetchConfiguration _ _ _ Hconfiguration), Hclass,
      Hsettle.
  - now rewrite (outcome_fetchLanguageCodes _ _ _ Hlanguages), Hclass,
      Hsettle.
Qed.

Lemma error_envelope_always_throws_witness :
  isErrorResponse listing_with_status = Return true
  /\ (exists e,
         run (fetchMovies "KEY" upcoming (Some "fr-FR"))
             (always listing_with_status)
         = ([EvFetch (movies_url "KEY" upcoming "fr-FR")], Throw e)
         /\ e <> Error "Unexpected response")
  /\ (exists e,
         run (fetchConfiguration "KEY") (always listing_with_status)
         = ([EvFetch (configuration_url "KEY")], Throw e)
         /\ e <> Error "Unexpected response")
  /\ (exists e,
         run (fetchLanguageCodes "KEY") (always listing_with_status)
         = ([EvFetch (languages_url "KEY")], Throw e)
         /\ e <> Error "Unexpected response").
Proof.
  exact (@error_envelope_always_throws
           IntNumber "KEY" (always listing_with_status) upcoming
           (Some "fr-FR") listing_with_status_props
           eq_refl eq_refl eq_refl eq_refl eq_refl).
Defined.

(** ** Classification *)

Lemma validated_settle `{Number} (success : value -> option value)
      (data : value) :
  validated success data (settle (classify success data) data).
Proof.
  intros a. unfold classify.
  destruct (error_shape data).
  - cbn [settle]. now destruct (error_message data).
  - destruct (success data) as [b|]; cbn [settle]; [|discriminate].
    now intros [= ->].
Qed.

Lemma without_results_unrecognized `{Number} (data : value) :
  has_field "results" data = false ->
  has_field "status_code" data = false ->
  classify movies_success data = Unrecognized.
Proof.
  unfold classify, movies_success, results_of, has_field, has_own.
  destruct data as [| |b|n|s|items|props]; try reflexivity.
  cbn [error_shape]. unfold has_own.
  destruct (own "results" props); [discriminate|].
  now destruct (own "status_code" props).
Qed.

(** C3. Each exported call, on every payload, ends in exactly one of three
    ways, which exclude one another: the payload has the error shape and
    the call throws something other than "Unexpected response"; or it has
    the success shape of the call and the call returns the validated value;
    or it has neither and the call throws "Unexpected response".  A value
    is returned only in the second case.  In particular, on a payload with
    neither [results] nor [status_code], [fetchMovies] throws "Unexpected
    response" (after printing its diagnostic) and returns nothing. *)
Theorem every_payload_classified `{Number}
        (apiKey : string) (net : network) (endpoint : Endpoint)
        (languageCode : option string) (data : value) :
  answers net (movies_url apiKey endpoint (or_en_US languageCode)) data ->
  answers net (configuration_url apiKey) data ->
  answers net (languages_url apiKey) data ->
  let movies := snd (run (fetchMovies apiKey endpoint languageCode) net) in
  let configuration := snd (run (fetchConfiguration apiKey) net) in
  let codes := snd (run (fetchLanguageCodes apiKey) net) in
  (classified movies_success data movies
   /\ validated movies_success data movies)
  /\ (classified configuration_success data configuration
      /\ validated configuration_success data configuration)
  /\ (classified languages_success data codes
      /\ validated languages_success data codes)
  /\ (has_field "results" data = false ->
      has_field "status_code" data = false ->
      run (fetchMovies apiKey endpoint languageCode) net
      = (let url := movies_url apiKey endpoint (or_en_US languageCode) in
         [EvFetch url; EvConsoleError url data],
         Throw (Error "Unexpected response"))).
Proof.
  intros Hmovies Hconfiguration Hlanguages. cbv zeta.
  rewrite (outcome_fetchMovies _ _ _ _ _ Hmovies),
    (outcome_fetchConfiguration _ _ _ Hconfiguration),
    (outcome_fetchLanguageCodes _ _ _ Hlanguages).
  cbn [snd].
  do 3 (split; [split; [apply classified_settle | apply validated_settle] |]).
  intros Hresults Hcode.
  exact (unrecognized_fetchMovies _ _ _ _ _ Hmovies
           (without_results_unrecognized _ Hresults Hcode)).
Qed.

Lemma every_payload_classified_witness :
  (classified movies_success empty_object
              (snd (run (fetchMovies "KEY" popular None)
                        (always empty_object)))
   /\ validated movies_success empty_object
                (snd (run (fetchMovies "KEY" popular None)
                          (always empty_object))))
  /\ run (fetchMovies "KEY" popular None) (always empty_object)
     = ([EvFetch (movies_url "KEY" popular "en-US");
         EvConsoleError (movies_url "KEY" popular "en-US") empty_object],
        Throw (Error "Unexpected response")).
Proof.
  pose proof (@every_payload_classified
                IntNumber "KEY" (always empty_object) popular None
                empty_object eq_refl eq_refl eq_refl) as Hall.
  cbv zeta in Hall.
  exact (conj (proj1 Hall)
              (proj2 (proj2 (proj2 Hall)) eq_refl eq_refl)).
Defined.

(** ** The configuration *)

(** C4, as amended.  On a payload that is not an error envelope and whose
    [images] is an object: if that object holds a string [base_url],
    [fetchConfiguration] returns the payload, whose [images.base_url] is
    that string; if it holds no [base_url], [fetchConfiguration] throws the
    "Unexpected response" error. *)
Theorem fetchConfiguration_base_url `{Number}
        (apiKey : string) (net : network)
        (props images : list (string * value)) :
  error_shape (VObj props) = false ->
  own "images" props = Some (VObj images) ->
  answers net (configuration_url apiKey) (VObj props) ->
  (forall url,
      own "base_url" images = Some (VStr url) ->
      run (fetchConfiguration apiKey) net
      = ([EvFetch (configuration_url apiKey)], Return (VObj props))
      /\ (found <- get (VObj props) "images" ;; get found "base_url")
         = Return (VStr url))
  /\ (own "base_url" images = None ->
      run (fetchConfiguration apiKey) net
      = ([EvFetch (configuration_url apiKey)],
         Throw (Error "Unexpected response"))).
Proof.
  intros Hshape Himages Hnet.
  rewrite (outcome_fetchConfiguration _ _ _ Hnet).
  unfold classify, configuration_success, base_url_of.
  rewrite Hshape, Himages. split.
  - intros url Hurl. rewrite Hurl. split; [reflexivity|].
    cbn [get prop bind Monad_result]. rewrite Himages.
    cbn [get prop]. now rewrite Hurl.
  - intros Hnone. now rewrite Hnone.
Qed.

Lemma fetchConfiguration_base_url_witness :
  (run (fetchConfiguration "KEY") (always configuration_sample)
   = ([EvFetch (configuration_url "KEY")], Return configuration_sample)
   /\ (found <- get configuration_sample "images" ;; get found "base_url")
      = Return (VStr "http://x/"))
  /\ run (fetchConfiguration "KEY") (always configuration_without_base_url)
     = ([EvFetch (configuration_url "KEY")],
        Throw (Error "Unexpected response")).
Proof.
  split.
  - exact (proj1 (@fetchConfiguration_base_url
                    IntNumber "KEY" (always configuration_sample)
                    configuration_sample_props
                    [("base_url", VStr "http://x/")]
                    eq_refl eq_refl eq_refl)
                 "http://x/" eq_refl).
  - exact (proj2 (@fetchConfiguration_base_url
                    IntNumber "KEY" (always configuration_without_base_url)
                    configuration_without_base_url_props []
                    eq_refl eq_refl eq_refl)
                 eq_refl).
Defined.

(** C4, as stated, fails on a configuration that also carries the two keys
    of an error envelope: its [images.base_url] is a string, and the call
    throws the API error instead of returning it. *)
Lemma configuration_with_status_is_refused :
  base_url_of configuration_with_status = Some "http://x/"
  /\ run (fetchConfiguration "KEY") (always configuration_with_status)
     = ([EvFetch (configuration_url "KEY")],
        Throw (Error "7: Invalid API key")).
Proof. split; reflexivity. Qed.

(** ** Diagnostics *)

(** C6 fails on the code.  On the empty object, an unrecognized payload
    for all three calls, [fetchMovies] prints the URL and the payload
    before it throws "Unexpected response", while [fetchConfiguration] and
    [fetchLanguageCodes] throw the same error and print nothing. *)
Theorem unexpected_response_printed_by_fetchMovies_alone (apiKey : string) :
  run (fetchMovies apiKey popular None) (always empty_object)
  = ([EvFetch (movies_url apiKey popular "en-US");
      EvConsoleError (movies_url apiKey popular "en-US") empty_object],
     Throw (Error "Unexpected response"))
  /\ run (fetchConfiguration apiKey) (always empty_object)
     = ([EvFetch (configuration_url apiKey)],
        Throw (Error "Unexpected response"))
  /\ run (fetchLanguageCodes apiKey) (always empty_object)
     = ([EvFetch (languages_url apiKey)],
        Throw (Error "Unexpected response")).
Proof. repeat split. Qed.

(** ** The API key *)

Lemma module_init_decides `{Number} (envApiKey : value) :
  module_init envApiKey
  = match envApiKey with
    | VStr key =>
        if key =? "" then
          Throw (InvariantFailed "VITE_MOVIES_API_KEY key is required")
        else Return key
    | _ => Throw (InvariantFailed "VITE_MOVIES_API_KEY key is required")
    end.
Proof.
  destruct envApiKey as [| |b|n|s|items|props]; cbn; try reflexivity.
  - now destruct b.
  - now destruct (number_truthy n).
  - now destruct (s =? "").
Qed.

(** C7, as amended.  The module loads, with [apiKey] bound to the value
    supplied, exactly when that value is a string and not the empty one;
    on anything else (nothing, a value that is not a string, the empty
    string) the invariant throws while the module loads.  Every request of
    a loaded module carries that very string as its [api_key]. *)
Theorem module_init_requires_nonempty_string `{Number} (envApiKey : value) :
  (forall key,
      module_init envApiKey = Return key
      <-> envApiKey = VStr key /\ key <> "")
  /\ ((forall key, envApiKey = VStr key -> key = "") ->
      module_init envApiKey
      = Throw (InvariantFailed "VITE_MOVIES_API_KEY key is required"))
  /\ (forall key,
         module_init envApiKey = Return key ->
         forall net endpoint languageCode,
           requests (fst (run (fetchMovies key endpoint languageCode) net))
           = [baseUrl ++ "/movie/" ++ endpoint_literal endpoint
                ++ "?api_key=" ++ key
                ++ "&language=" ++ or_en_US languageCode]
           /\ requests (fst (run (fetchConfiguration key) net))
              = [baseUrl ++ "/configuration?api_key=" ++ key]
           /\ requests (fst (run (fetchLanguageCodes key) net))
              = [baseUrl ++ "/configuration/languages?api_key=" ++ key]).
Proof.
  rewrite module_init_decides.
  split; [intros key; split | split].
  - destruct envApiKey as [| |b|n|s|items|props]; try discriminate.
    destruct (String.eqb_spec s ""); [discriminate|].
    now intros [= ->].
  - intros [-> Hkey]. now destruct (String.eqb_spec key "").
  - intros Hempty.
    destruct envApiKey as [| |b|n|s|items|props]; try reflexivity.
    now rewrite (Hempty s eq_refl).
  - intros key _ net endpoint languageCode. repeat split.
    + apply requests_fetchMovies.
    + apply requests_fetchConfiguration.
    + apply requests_fetchLanguageCodes.
Qed.


(** C7, as stated, fails on the empty string: it is a string, it is
    present, and the invariant refuses it. *)
Lemma empty_api_key_is_refused :
  typeof (VStr "") = "string"
  /\ module_init (VStr "")
     = Throw (InvariantFailed "VITE_MOVIES_API_KEY key is required").
Proof. split; reflexivity. Qed.

(** ** Beyond the classification: rejections *)

(** X1. When the promise of [fetch] rejects, each of the three calls rejects
    with that very reason after its one request: nothing is classified,
    nothing is printed, nothing is retried. *)
Theorem fetch_rejection_propagates `{Number}
        (apiKey : string) (net : network) (endpoint : Endpoint)
        (languageCode : option string) (reason : string) :
  (net (movies_url apiKey endpoint (or_en_US languageCode))
   = NetworkFailure reason ->
   run (fetchMovies apiKey endpoint languageCode) net
   = ([EvFetch (movies_url apiKey endpoint (or_en_US languageCode))],
      Throw (FetchRejected reason)))
  /\ (net (configuration_url apiKey) = NetworkFailure reason ->
      run (fetchConfiguration apiKey) net
      = ([EvFetch (configuration_url apiKey)], Throw (FetchRejected reason)))
  /\ (net (languages_url apiKey) = NetworkFailure reason ->
      run (fetchLanguageCodes apiKey) net
      = ([EvFetch (languages_url apiKey)], Throw (FetchRejected reason))).
Proof.
  rewrite run_fetchMovies, run_fetchConfiguration, run_fetchLanguageCodes.
  cbv zeta. repeat split; intros Hnet; now rewrite Hnet.
Qed.

Lemma fetch_rejection_propagates_witness :
  run (fetchMovies "KEY" now_playing None) (offline "Failed to fetch")
  = ([EvFetch (movies_url "KEY" now_playing "en-US")],
     Throw (FetchRejected "Failed to fetch"))
  /\ run (fetchConfiguration "KEY") (offline "Failed to fetch")
     = ([EvFetch (configuration_url "KEY")],
        Throw (FetchRejected "Failed to fetch"))
  /\ run (fetchLanguageCodes "KEY") (offline "Failed to fetch")
     = ([EvFetch (languages_url "KEY")],
        Throw (FetchRejected "Failed to fetch")).
Proof.
  pose proof (@fetch_rejection_propagates
                IntNumber "KEY" (offline "Failed to fetch") now_playing None
                "Failed to fetch") as (Hmovies & Hconfiguration & Hlanguages).
  exact (conj (Hmovies eq_refl)
              (conj (Hconfiguration eq_refl) (Hlanguages eq_refl))).
Defined.

(** X2. When the body of the response is not JSON, so that the promise of
    [response.json()] rejects, each of the three calls rejects with that
    failure after its one request, and prints nothing. *)
Theorem unreadable_body_propagates `{Number}
        (apiKey : string) (net : network) (endpoint : Endpoint)
        (languageCode : option string) :
  (net (movies_url apiKey endpoint (or_en_US languageCode))
   = Responded {| body := None |} ->
   run (fetchMovies apiKey endpoint languageCode) net
   = ([EvFetch (movies_url apiKey endpoint (or_en_US languageCode))],
      Throw BodyNotJson))
  /\ (net (configuration_url apiKey) = Responded {| body := None |} ->
      run (fetchConfiguration apiKey) net
      = ([EvFetch (configuration_url apiKey)], Throw BodyNotJson))
  /\ (net (languages_url apiKey) = Responded {| body := None |} ->
      run (fetchLanguageCodes apiKey) net
      = ([EvFetch (languages_url apiKey)], Throw BodyNotJson)).
Proof.
  rewrite run_fetchMovies, run_fetchConfiguration, run_fetchLanguageCodes.
  cbv zeta. repeat split; intros Hnet; now rewrite Hnet.
Qed.

Lemma unreadable_body_propagates_witness :
  run (fetchMovies "KEY" top_rated (Some "de-DE")) garbled
  = ([EvFetch (movies_url "KEY" top_rated "de-DE")], Throw BodyNotJson)
  /\ run (fetchConfiguration "KEY") garbled
     = ([EvFetch (configuration_url "KEY")], Throw BodyNotJson)
  /\ run (fetchLanguageCodes "KEY") garbled
     = ([EvFetch (languages_url "KEY")], Throw BodyNotJson).
Proof.
  pose proof (@unreadable_body_propagates
                IntNumber "KEY" garbled top_rated (Some "de-DE"))
    as (Hmovies & Hconfiguration & Hlanguages).
  exact (conj (Hmovies eq_refl)
              (conj (Hconfiguration eq_refl) (Hlanguages eq_refl))).
Defined.

(** ** Beyond the classification: the error branch *)

Section Rendering.
Context `{Number}.

Lemma join_returns (element : value -> result string) (items : list value) :
  (forall x, In x items -> exists s, element x = Return s) ->
  exists s, join element items = Return s.
Proof.
  induction items as [|x rest IH]; intros Hall; [now exists ""|].
  destruct (Hall x (or_introl eq_refl)) as [a Ha].
  destruct rest as [|y rest]; [now exists a|].
  destruct IH as [b Hb]; [intros z Hz; apply Hall; now right|].
  exists (a ++ "," ++ b).
  change (join element (x :: y :: rest))
    with (a' <- element x ;; b' <- join element (y :: rest) ;;
          Return (a' ++ "," ++ b')).
  cbn [bind Monad_result]. now rewrite Ha, Hb.
Qed.

Lemma to_string_of_stringable (v : value) :
  stringable v = true -> exists s, to_string v = Return s.
Proof.
  induction v as [| |b|n|s|items IH|props _] using value_nested_ind;
    cbn [to_string stringable]; intros Hv; try (eexists; reflexivity).
  - destruct b; eexists; reflexivity.
  - apply join_returns. intros x Hx.
    rewrite Forall_forall in IH. rewrite forallb_forall in Hv.
    destruct x; try (eexists; reflexivity); apply (IH _ Hx), (Hv _ Hx).
  - destruct (has_own "toString" props); [discriminate|].
    eexists; reflexivity.
Qed.

Lemma join_returned (element : value -> result string)
      (items : list value) :
  forall s, join element items = Return s ->
            forall x, In x items -> exists s', element x = Return s'.
Proof.
  induction items as [|y rest IH]; intros s Hs x Hx; [destruct Hx|].
  destruct rest as [|z rest].
  - destruct Hx as [->|[]]. now exists s.
  - change (join element (y :: z :: rest))
      with (a' <- element y ;; b' <- join element (z :: rest) ;;
            Return (a' ++ "," ++ b')) in Hs.
    cbn [bind Monad_result] in Hs.
    destruct (element y) as [a|] eqn:Hy; [|discriminate Hs].
    destruct (join element (z :: rest)) as [b|]; [|discriminate Hs].
    destruct Hx as [->|Hx]; [now exists a|].
    exact (IH b eq_refl x Hx).
Qed.

Lemma to_string_needs_stringable (v : value) :
  forall s, to_string v = Return s -> stringable v = true.
Proof.
  induction v as [| |b|n|t|items IH|props _] using value_nested_ind;
    cbn [to_string stringable]; intros s Hs; try reflexivity.
  - rewrite Forall_forall in IH. apply forallb_forall. intros x Hx.
    destruct (join_returned _ _ _ Hs x Hx) as [s' Hx'].
    destruct x; try reflexivity; exact (IH _ Hx _ Hx').
  - now destruct (has_own "toString" props).
Qed.

(** Whether the message of the error branch can be built is decided by the
    two values alone. *)
Lemma error_message_of_envelope (props : list (string * value))
      (status_code status_message : value) :
  own "status_code" props = Some status_code ->
  own "status_message" props = Some status_message ->
  (stringable status_code && stringable status_message = true ->
   exists code message,
     to_string status_code = Return code
     /\ to_string status_message = Return message
     /\ error_message (VObj props) = Return (code ++ ": " ++ message))
  /\ (stringable status_code && stringable status_message = false ->
      error_message (VObj props) = Throw TypeErrorToPrimitive).
Proof.
  intros Hc Hm. unfold error_message.
  cbn [get prop bind ret Monad_result]. rewrite Hc, Hm. split.
  - intros [Hsc Hsm]%andb_prop.
    destruct (to_string_of_stringable _ Hsc) as [code Hcode].
    destruct (to_string_of_stringable _ Hsm) as [message Hmessage].
    exists code, message. now rewrite Hcode, Hmessage.
  - intros Hnot.
    destruct (to_string status_code) as [code|e] eqn:Hcode.
    + rewrite (to_string_needs_stringable _ _ Hcode) in Hnot.
      cbn [andb] in Hnot.
      destruct (to_string status_message) as [message|e] eqn:Hmessage.
      * rewrite (to_string_needs_stringable _ _ Hmessage) in Hnot.
        discriminate Hnot.
      * now rewrite (to_string_throws _ _ Hmessage).
    + now rewrite (to_string_throws _ _ Hcode).
Qed.

Lemma error_message_on_envelope (data : value) (e : exn) :
  error_shape data = true ->
  error_message data = Throw e ->
  e = TypeErrorToPrimitive.
Proof.
  intros Hshape Hthrow.
  destruct (error_message_throws _ _ Hthrow) as [->| ->]; [reflexivity|].
  destruct data; try discriminate Hshape.
  revert Hthrow. unfold error_message.
  cbn [get prop bind ret Monad_result].
  match goal with
  | |- match to_string ?c with _ => _ end = _ -> _ =>
      destruct (to_string c) as [code|e] eqn:Hcode
  end.
  - match goal with
    | |- match to_string ?m with _ => _ end = _ -> _ =>
        destruct (to_string m) as [message|e] eqn:Hmessage
    end; [discriminate|].
    now rewrite (to_string_throws _ _ Hmessage).
  - now rewrite (to_string_throws _ _ Hcode).
Qed.

(** No call ends in a TypeError of misuse, in any class. *)
Lemma settle_never_misuses (success : value -> option value)
      (data : value) (e : exn) :
  settle (classify success data) data = Throw e -> misuse e = false.
Proof.
  unfold classify. destruct (error_shape data) eqn:Hshape.
  - cbn [settle]. destruct (error_message data) as [text|e'] eqn:Hmessage.
    + now intros [= <-].
    + intros [= <-]. now rewrite (error_message_on_envelope _ _ Hshape Hmessage).
  - destruct (success data); cbn [settle]; [discriminate|now intros [= <-]].
Qed.

End Rendering.

(** X3. On an error envelope, what a call throws is decided by the values
    of [status_code] and [status_message] alone, and is the same for the
    three calls, [fetchLanguageCodes] included: the Error with the message
    [code: message] when both values can be rendered (they hold no object
    with an own [toString], at any depth of arrays), and the TypeError of
    the template literal otherwise. *)
Theorem api_error_decided_by_the_two_values `{Number}
        (apiKey : string) (net : network) (endpoint : Endpoint)
        (languageCode : option string) (props : list (string * value))
        (status_code status_message : value) :
  own "status_code" props = Some status_code ->
  own "status_message" props = Some status_message ->
  answers net (movies_url apiKey endpoint (or_en_US languageCode))
          (VObj props) ->
  answers net (configuration_url apiKey) (VObj props) ->
  answers net (languages_url apiKey) (VObj props) ->
  (stringable status_code && stringable status_message = true ->
   exists code message,
     to_string status_code = Return code
     /\ to_string status_message = Return message
     /\ snd (run (fetchMovies apiKey endpoint languageCode) net)
        = Throw (Error (code ++ ": " ++ message))
     /\ snd (run (fetchConfiguration apiKey) net)
        = Throw (Error (code ++ ": " ++ message))
     /\ snd (run (fetchLanguageCodes apiKey) net)
        = Throw (Error (code ++ ": " ++ message)))
  /\ (stringable status_code && stringable status_message = false ->
      snd (run (fetchMovies apiKey endpoint languageCode) net)
      = Throw TypeErrorToPrimitive
      /\ snd (run (fetchConfiguration apiKey) net)
         = Throw TypeErrorToPrimitive
      /\ snd (run (fetchLanguageCodes apiKey) net)
         = Throw TypeErrorToPrimitive).
Proof.
  intros Hc Hm Hmovies Hconfiguration Hlanguages.
  assert (Hclass : forall success,
             classify success (VObj props) = ApiErrorShape).
  { intros success. unfold classify. cbn [error_shape]. unfold has_own.
    now rewrite Hc, Hm. }
  rewrite (outcome_fetchMovies _ _ _ _ _ Hmovies),
    (outcome_fetchConfiguration _ _ _ Hconfiguration),
    (outcome_fetchLanguageCodes _ _ _ Hlanguages), !Hclass.
  cbn [snd settle].
  destruct (error_message_of_envelope _ _ _ Hc Hm) as [Hbuilt Hthrown].
  split.
  - intros Hboth. destruct (Hbuilt Hboth) as (code & message & ? & ? & ->).
    now exists code, message.
  - intros Hnot. now rewrite (Hthrown Hnot).
Qed.

Lemma api_error_decided_by_the_two_values_witness :
  (exists code message,
      to_string (VStr "gone") = Return code
      /\ to_string VNull = Return message
      /\ snd (run (fetchMovies "KEY" popular None)
                  (always listing_with_status))
         = Throw (Error (code ++ ": " ++ message))
      /\ snd (run (fetchConfiguration "KEY") (always listing_with_status))
         = Throw (Error (code ++ ": " ++ message))
      /\ snd (run (fetchLanguageCodes "KEY") (always listing_with_status))
         = Throw (Error (code ++ ": " ++ message)))
  /\ snd (run (fetchLanguageCodes "KEY") (always opaque_status))
     = Throw TypeErrorToPrimitive.
Proof.
  split.
  - exact (proj1 (@api_error_decided_by_the_two_values
                    IntNumber "KEY" (always listing_with_status) popular None
                    listing_with_status_props (VStr "gone") VNull
                    eq_refl eq_refl eq_refl eq_refl eq_refl)
                 eq_refl).
  - exact (proj2 (proj2
                    (proj2 (@api_error_decided_by_the_two_values
                              IntNumber "KEY" (always opaque_status)
                              popular None
                              [("status_code", VObj [("toString", VNull)]);
                               ("status_message", VStr "Invalid API key");
                               ("success", VBool false)]
                              (VObj [("toString", VNull)])
                              (VStr "Invalid API key")
                              eq_refl eq_refl eq_refl eq_refl eq_refl)
                           eq_refl))).
Defined.

(** X4. Whatever the network does, no call throws a TypeError of misuse:
    the truthiness and [typeof] tests of the guards keep [in] and the
    property reads away from null, undefined and the primitives, and
    [every] and [map] are called on arrays only. *)
Theorem calls_never_misuse_a_payload `{Number}
        (apiKey : string) (net : network) (endpoint : Endpoint)
        (languageCode : option string) (e : exn) :
  (snd (run (fetchMovies apiKey endpoint languageCode) net) = Throw e ->
   misuse e = false)
  /\ (snd (run (fetchConfiguration apiKey) net) = Throw e ->
      misuse e = false)
  /\ (snd (run (fetchLanguageCodes apiKey) net) = Throw e ->
      misuse e = false).
Proof.
  rewrite run_fetchMovies, run_fetchConfiguration, run_fetchLanguageCodes.
  cbv zeta. repeat split.
  - destruct (net _) as [reason|[[data|]]]; cbn [snd];
      try (now intros [= <-]).
    pose proof (settle_never_misuses movies_success data e) as Hsettle.
    destruct (classify movies_success data); exact Hsettle.
  - destruct (net _) as [reason|[[data|]]]; cbn [snd];
      try (now intros [= <-]).
    apply settle_never_misuses.
  - destruct (net _) as [reason|[[data|]]]; cbn [snd];
      try (now intros [= <-]).
    apply settle_never_misuses.
Qed.

(** ** Beyond the classification: the console *)

(** X5. [fetchMovies] prints exactly when it throws "Unexpected response":
    in that case its trace is the request followed by one [console.error]
    with the URL requested and the payload received, and in every other
    case (a value, an API error, a rejection) its trace is the request
    alone. *)
Theorem fetchMovies_prints_iff_unexpected `{Number}
        (apiKey : string) (net : network) (endpoint : Endpoint)
        (languageCode : option string) :
  let url := movies_url apiKey endpoint (or_en_US languageCode) in
  let outcome := snd (run (fetchMovies apiKey endpoint languageCode) net) in
  let trace := fst (run (fetchMovies apiKey endpoint languageCode) net) in
  (outcome = Throw (Error "Unexpected response") ->
   exists data,
     answers net url data /\ trace = [EvFetch url; EvConsoleError url data])
  /\ (outcome <> Throw (Error "Unexpected response") ->
      trace = [EvFetch url]).
Proof.
  cbv zeta. rewrite run_fetchMovies. cbv zeta. unfold answers.
  destruct (net _) as [reason|[[data|]]]; cbn [fst snd];
    try (split; [discriminate | reflexivity]).
  unfold classify.
  destruct (error_shape data) eqn:Hshape.
  - destruct (settle_error_shape data) as (e & Hsettle & Hnot).
    cbn [fst snd]. rewrite Hsettle. split; [|reflexivity].
    intros [= Heq]. now destruct Hnot.
  - destruct (movies_success data); cbn [fst snd settle].
    + split; [discriminate | reflexivity].
    + split; [intros _; now exists data | intros Hneq; now destruct Hneq].
Qed.

(** X6. [fetchConfiguration] and [fetchLanguageCodes] never write to the
    console and never issue a second request: under every network, and
    however the call ends, the trace is the one request. *)
Theorem configuration_and_languages_leave_one_request `{Number}
        (apiKey : string) (net : network) :
  fst (run (fetchConfiguration apiKey) net)
  = [EvFetch (configuration_url apiKey)]
  /\ fst (run (fetchLanguageCodes apiKey) net)
     = [EvFetch (languages_url apiKey)].
Proof.
  rewrite run_fetchConfiguration, run_fetchLanguageCodes. cbv zeta.
  split; now destruct (net _) as [reason|[[data|]]].
Qed.

(** ** Beyond the classification: payloads of the wrong kind *)

(** X7. A [results] field that is there but is not an array (null, an
    object, a string) is no listing: unless the payload is an error
    envelope, [fetchMovies] prints its diagnostic and throws "Unexpected
    response". *)
Theorem fetchMovies_refuses_results_that_are_no_array `{Number}
        (apiKey : string) (net : network) (endpoint : Endpoint)
        (languageCode : option string)
        (props : list (string * value)) (results : value) :
  own "results" props = Some results ->
  isArray results = false ->
  has_own "status_code" props && has_own "status_message" props = false ->
  answers net (movies_url apiKey endpoint (or_en_US languageCode))
          (VObj props) ->
  run (fetchMovies apiKey endpoint languageCode) net
  = (let url := movies_url apiKey endpoint (or_en_US languageCode) in
     [EvFetch url; EvConsoleError url (VObj props)],
     Throw (Error "Unexpected response")).
Proof.
  intros Hresults Harray Hkeys Hnet.
  apply (unrecognized_fetchMovies _ _ _ _ _ Hnet).
  unfold classify, movies_success, results_of. cbn [error_shape].
  rewrite Hkeys, Hresults. now destruct results.
Qed.

Lemma fetchMovies_refuses_results_that_are_no_array_witness :
  run (fetchMovies "KEY" popular None)
      (always (VObj results_not_array_props))
  = ([EvFetch (movies_url "KEY" popular "en-US");
      EvConsoleError (movies_url "KEY" popular "en-US")
                     (VObj results_not_array_props)],
     Throw (Error "Unexpected response")).
Proof.
  exact (@fetchMovies_refuses_results_that_are_no_array
           IntNumber "KEY" (always (VObj results_not_array_props))
           popular None results_not_array_props VNull
           eq_refl eq_refl eq_refl eq_refl).
Defined.

(** X8. [fetchConfiguration] refuses, with "Unexpected response", every
    payload that is not an error envelope and whose [images] is missing, is
    not an object (null, an array, a string), or is an object whose
    [base_url] is not a string. *)
Theorem fetchConfiguration_refuses_malformed_images `{Number}
        (apiKey : string) (net : network) (props : list (string * value)) :
  has_own "status_code" props && has_own "status_message" props = false ->
  answers net (configuration_url apiKey) (VObj props) ->
  (own "images" props = None
   \/ (exists images,
          own "images" props = Some images
          /\ forall fields, images <> VObj fields)
   \/ (exists fields base_url,
          own "images" props = Some (VObj fields)
          /\ own "base_url" fields = Some base_url
          /\ typeof base_url <> "string")) ->
  run (fetchConfiguration apiKey) net
  = ([EvFetch (configuration_url apiKey)],
     Throw (Error "Unexpected response")).
Proof.
  intros Hkeys Hnet Himages.
  rewrite (outcome_fetchConfiguration _ _ _ Hnet).
  unfold classify, configuration_success, base_url_of. cbn [error_shape].
  rewrite Hkeys.
  destruct Himages as [-> | [(images & -> & Hnot) |
                             (fields & base_url & -> & -> & Htype)]].
  - reflexivity.
  - destruct images as [| | | | | |fields]; try reflexivity.
    now destruct (Hnot fields).
  - destruct base_url; try reflexivity. now destruct Htype.
Qed.

Lemma fetchConfiguration_refuses_malformed_images_witness :
  run (fetchConfiguration "KEY") (always (VObj images_not_object_props))
  = ([EvFetch (configuration_url "KEY")],
     Throw (Error "Unexpected response"))
  /\ run (fetchConfiguration "KEY")
         (always (VObj base_url_not_string_props))
     = ([EvFetch (configuration_url "KEY")],
        Throw (Error "Unexpected response")).
Proof.
  split.
  - apply (@fetchConfiguration_refuses_malformed_images
             IntNumber "KEY" (always (VObj images_not_object_props))
             images_not_object_props eq_refl eq_refl).
    right. left. exists (VArr [VStr "http://x/"]).
    split; [reflexivity | discriminate].
  - apply (@fetchConfiguration_refuses_malformed_images
             IntNumber "KEY" (always (VObj base_url_not_string_props))
             base_url_not_string_props eq_refl eq_refl).
    right. right. do 2 eexists.
    split; [reflexivity | split; [reflexivity | discriminate]].
Defined.

(** X9. The catalogue of languages is all or nothing: one element that is
    not an object with the three keys makes [fetchLanguageCodes] throw
    "Unexpected response", and the codes of the other elements are not
    returned. *)
Theorem fetchLanguageCodes_all_or_nothing `{Number}
        (apiKey : string) (net : network)
        (items : list value) (odd : value) :
  In odd items ->
  language_object odd = false ->
  answers net (languages_url apiKey) (VArr items) ->
  run (fetchLanguageCodes apiKey) net
  = ([EvFetch (languages_url apiKey)],
     Throw (Error "Unexpected response")).
Proof.
  intros Hin Hodd Hnet.
  rewrite (outcome_fetchLanguageCodes _ _ _ Hnet).
  unfold classify, languages_success, languages_of. cbn [error_shape].
  destruct (forallb language_object items) eqn:Hall; [|reflexivity].
  rewrite forallb_forall in Hall. rewrite (Hall _ Hin) in Hodd.
  discriminate Hodd.
Qed.

Lemma fetchLanguageCodes_all_or_nothing_witness :
  run (fetchLanguageCodes "KEY")
      (always (VArr [english; nameless_language]))
  = ([EvFetch (languages_url "KEY")],
     Throw (Error "Unexpected response")).
Proof.
  apply (@fetchLanguageCodes_all_or_nothing
           IntNumber "KEY" (always (VArr [english; nameless_language]))
           [english; nameless_language] nameless_language).
  - right. left. reflexivity.
  - reflexivity.
  - reflexivity.
Defined.

(** X10. A payload that is not an object (null, a number, a string, a
    boolean, an array) is unrecognized by [fetchMovies] and by
    [fetchConfiguration]: both throw "Unexpected response", [fetchMovies]
    after printing its diagnostic. *)
Theorem payloads_that_are_no_object_are_unexpected `{Number}
        (apiKey : string) (net : network) (endpoint : Endpoint)
        (languageCode : option string) (data : value) :
  (forall props, data <> VObj props) ->
  answers net (movies_url apiKey endpoint (or_en_US languageCode)) data ->
  answers net (configuration_url apiKey) data ->
  run (fetchMovies apiKey endpoint languageCode) net
  = (let url := movies_url apiKey endpoint (or_en_US languageCode) in
     [EvFetch url; EvConsoleError url data],
     Throw (Error "Unexpected response"))
  /\ run (fetchConfiguration apiKey) net
     = ([EvFetch (configuration_url apiKey)],
        Throw (Error "Unexpected response")).
Proof.
  intros Hnot Hmovies Hconfiguration. split.
  - apply (unrecognized_fetchMovies _ _ _ _ _ Hmovies).
    destruct data as [| | | | | |props]; try reflexivity.
    now destruct (Hnot props).
  - rewrite (outcome_fetchConfiguration _ _ _ Hconfiguration).
    destruct data as [| | | | | |props]; try reflexivity.
    now destruct (Hnot props).
Qed.

Lemma payloads_that_are_no_object_are_unexpected_witness :
  run (fetchMovies "KEY" popular None) (always VNull)
  = ([EvFetch (movies_url "KEY" popular "en-US");
      EvConsoleError (movies_url "KEY" popular "en-US") VNull],
     Throw (Error "Unexpected response"))
  /\ run (fetchConfiguration "KEY") (always VNull)
     = ([EvFetch (configuration_url "KEY")],
        Throw (Error "Unexpected response")).
Proof.
  apply (@payloads_that_are_no_object_are_unexpected
           IntNumber "KEY" (always VNull) popular None VNull);
    [discriminate | reflexivity | reflexivity].
Defined.

(** ** Beyond the classification: the URLs *)

Lemma append_cancel_l (a b c : string) : a ++ b = a ++ c -> b = c.
Proof.
  induction a as [|x a IH]; cbn [append]; [trivial|].
  intros [= Heq]. exact (IH Heq).
Qed.

Lemma movies_url_endpoint (key key' : string) (endpoint endpoint' : Endpoint)
      (languageCode languageCode' : string) :
  movies_url key endpoint languageCode
  = movies_url key' endpoint' languageCode' ->
  endpoint = endpoint'.
Proof.
  unfold movies_url. intros Heq.
  apply append_cancel_l, append_cancel_l in Heq.
  destruct endpoint, endpoint'; try reflexivity; discriminate Heq.
Qed.

(** X11. The URL of a listing tells its endpoint: two requests of
    [fetchMovies] for different endpoints never share a URL, whatever the
    API keys and the languages.  Nor does a listing share its URL with the
    configuration or the catalogue of languages, or these two with one
    another. *)
Theorem request_urls_never_collide
        (key key' : string) (endpoint endpoint' : Endpoint)
        (languageCode languageCode' : string) :
  (movies_url key endpoint languageCode
   = movies_url key' endpoint' languageCode' -> endpoint = endpoint')
  /\ movies_url key endpoint languageCode <> configuration_url key'
  /\ movies_url key endpoint languageCode <> languages_url key'
  /\ configuration_url key <> languages_url key'.
Proof.
  split; [apply movies_url_endpoint|].
  unfold movies_url, configuration_url, languages_url.
  repeat split; intros Heq; apply append_cancel_l in Heq;
    discriminate Heq.
Qed.

(** X12. The four queries of [MoviesOverview] ask for four different URLs,
    whatever the API key and whatever the network answers: the query under
    each key requests the listing that key names, in [en-US], and that
    request alone; and no two queries share a key. *)
Theorem MoviesOverview_queries_are_distinct `{Number}
        (apiKey : string) (net : network) :
  map (fun query => (queryKey query, requests (fst (run (queryFn query) net))))
      (MoviesOverview apiKey)
  = [(["popularMovies"], [movies_url apiKey popular "en-US"]);
     (["topRatedMovies"], [movies_url apiKey top_rated "en-US"]);
     (["nowPlayingMovies"], [movies_url apiKey now_playing "en-US"]);
     (["upcomingMovies"], [movies_url apiKey upcoming "en-US"])]
  /\ NoDup (flat_map (fun query => requests (fst (run (queryFn query) net)))
                     (MoviesOverview apiKey))
  /\ NoDup (map queryKey (MoviesOverview apiKey)).
Proof.
  unfold MoviesOverview.
  cbn [map flat_map app queryKey queryFn popularMoviesQuery
           topRatedMoviesQuery nowPlayingMoviesQuery upcomingMoviesQuery].
  rewrite !requests_fetchMovies. cbn [or_en_US app].
  assert (Hdistinct : forall endpoint endpoint',
             endpoint <> endpoint' ->
             movies_url apiKey endpoint "en-US"
             <> movies_url apiKey endpoint' "en-US").
  { intros endpoint endpoint' Hneq Heq.
    exact (Hneq (movies_url_endpoint _ _ _ _ _ _ Heq)). }
  repeat split.
  - repeat constructor; cbn [In];
      intros Hin; repeat destruct Hin as [Hin|Hin]; try assumption;
      revert Hin; apply Hdistinct; discriminate.
  - repeat constructor; cbn [In];
      intros Hin; repeat destruct Hin as [Hin|Hin]; try assumption;
      discriminate Hin.
Qed.
